(** * A shallow embedding of src/express.ts (llrt-express)

    The TypeScript module defines a request object, a response object
    whose [finish] settles the promise of the current invocation, a
    router (route table, middleware array, nested mounting), and the
    adapter [parseRequest] from the API Gateway event.

    Modelling choices, all following the source:
    - a JS string is a [String.string], one [ascii] per UTF-16 code unit;
    - the [routes] object of a router is a [gmap string (list Route)] of
      its own properties (the bucket names "POST", "GET", "PUT", "DELETE",
      "ALL"); being a plain [{}], it also inherits the properties of
      [Object.prototype], none of which is an array: [findRoute] on such
      a key throws a TypeError;
    - the [Response] objects live in a heap ([gmap positive Response]) and
      each promise created by [getResponse] is a slot that is pending
      ([None]) until its first resolution;
    - handlers and middleware are state transformers on [State]; a user
      middleware returns its effect and whether it called [next] (as the
      last thing it does, like [return next()] in [useRouter]) or threw;
      a synchronous throw travels back through every [next()] call to the
      executor of the promise of [getResponse], which it rejects unless
      the response has already resolved it; a throw inside an [async]
      function ([handleRequest]) only rejects that function's promise,
      which nobody awaits. *)

From stdpp Require Import base gmap strings list.
From Stdlib Require Import String Ascii ZArith DecimalString Lia.

Open Scope string_scope.
Set Warnings "-register-all".

(* ------------------------------------------------------------------ *)
(** ** JSON values and [JSON.stringify] *)

(** The values a request body or a [json] argument can hold.  Numbers
    are modelled by their integer values. *)
Inductive jsval :=
| JNull
| JBool (b : bool)
| JNum (z : Z)
| JStr (s : string)
| JArr (xs : list jsval)
| JObj (kvs : list (string * jsval)).

Definition hex_digit (n : nat) : ascii :=
  ascii_of_nat (if Nat.ltb n 10 then 48 + n else 87 + n).

(** [JSON.stringify]'s quoting of one code unit. *)
Definition escape_char (c : ascii) : string :=
  let n := nat_of_ascii c in
  if Nat.eqb n 34 then String "\" (String "034" EmptyString)
  else if Nat.eqb n 92 then String "\" (String "\" EmptyString)
  else if Nat.eqb n 8 then "\b"
  else if Nat.eqb n 12 then "\f"
  else if Nat.eqb n 10 then "\n"
  else if Nat.eqb n 13 then "\r"
  else if Nat.eqb n 9 then "\t"
  else if Nat.ltb n 32 then
    String "\" (String "u" (String "0" (String "0"
      (String (hex_digit (n / 16)) (String (hex_digit (n mod 16)) EmptyString)))))
  else String c EmptyString.

Fixpoint escape_string (s : string) : string :=
  match s with
  | EmptyString => EmptyString
  | String c s' => escape_char c ++ escape_string s'
  end.

Definition quote (s : string) : string :=
  String "034" (escape_string s ++ String "034" EmptyString).

Fixpoint join (sep : string) (xs : list string) : string :=
  match xs with
  | [] => ""
  | [x] => x
  | x :: xs' => x ++ sep ++ join sep xs'
  end.

Definition Z_to_string (z : Z) : string :=
  NilZero.string_of_int (Z.to_int z).

Fixpoint JSON_stringify (v : jsval) : string :=
  match v with
  | JNull => "null"
  | JBool true => "true"
  | JBool false => "false"
  | JNum z => Z_to_string z
  | JStr s => quote s
  | JArr xs => "[" ++ join "," (map JSON_stringify xs) ++ "]"
  | JObj kvs =>
      "{" ++ join "," (map (fun kv => quote kv.1 ++ ":" ++ JSON_stringify kv.2) kvs)
      ++ "}"
  end.

(* ------------------------------------------------------------------ *)
(** ** [Request] *)

Record Request := mkRequest {
  req_body : jsval;
  req_headers : list (string * string);
  req_method : string;
  req_path : string
}.

(** [s.substring(n)] for [n >= 0]: the empty string once [n] passes the end. *)
Fixpoint substring_from (n : nat) (s : string) : string :=
  match n, s with
  | O, _ => s
  | S _, EmptyString => EmptyString
  | S n', String _ s' => substring_from n' s'
  end.

(** [s.startsWith(p)]. *)
Definition startsWith (s p : string) : bool := String.prefix p s.

(** [this.path = this.path.substring(prefix.length)] *)
Definition removePathPrefix (prefix : string) (r : Request) : Request :=
  {| req_body := req_body r; req_headers := req_headers r; req_method := req_method r;
     req_path := substring_from (String.length prefix) (req_path r) |}.

(** [this.path = `${prefix}${this.path}`] *)
Definition addPathPrefix (prefix : string) (r : Request) : Request :=
  {| req_body := req_body r; req_headers := req_headers r; req_method := req_method r;
     req_path := prefix ++ req_path r |}.

(* ------------------------------------------------------------------ *)
(** ** [Response], its promise, and the invocation state *)

(** The value [resToResponse] builds ([APIGatewayProxyResult]). *)
Record result := mkResult {
  res_statusCode : Z;
  res_body : string;
  res_headers : list (string * string)
}.

(** A [Response] object.  Its [resolver] is the [resolve] of the promise
    created by [getResponse], named by the promise's slot. *)
Record Response := mkResponse {
  statusCode : Z;
  body : string;
  contentType : string;
  resolver : positive
}.

(** [new Response(resolver)]: the field initialisers. *)
Definition new_Response (p : positive) : Response :=
  {| statusCode := 200; body := ""; contentType := "text/html"; resolver := p |}.

(** The state of one invocation: the request object, the heap of
    response objects, and the promise slots ([None] while pending). *)
Record State := mkState {
  st_req : Request;
  st_resps : gmap positive Response;
  st_promises : gmap positive (option result)
}.

Definition set_req (q : Request) (s : State) : State :=
  {| st_req := q; st_resps := st_resps s; st_promises := st_promises s |}.

Definition set_resp (l : positive) (r : Response) (s : State) : State :=
  {| st_req := st_req s; st_resps := <[l := r]> (st_resps s); st_promises := st_promises s |}.

(** [resolve(v)] of a promise: only the first call settles it. *)
Definition resolve (p : positive) (v : result) (s : State) : State :=
  match st_promises s !! p with
  | Some None =>
      {| st_req := st_req s; st_resps := st_resps s;
         st_promises := <[p := Some v]> (st_promises s) |}
  | _ => s
  end.

(** [Router.resToResponse]. *)
Definition resToResponse (r : Response) : result :=
  {| res_statusCode := statusCode r; res_body := body r;
     res_headers := [("Content-Type", contentType r)] |}.

(** [finish() { this.resolver(this); }] with the resolver installed by
    [getResponse]: [(res) => resolve(this.resToResponse(res))]. *)
Definition finish (this : positive) (s : State) : State :=
  match st_resps s !! this with
  | Some r => resolve (resolver r) (resToResponse r) s
  | None => s
  end.

(** A method call on the object at [this] returning [this]; a dangling
    reference (never produced by the code) leaves the state as it is. *)
Definition with_resp (this : positive) (f : Response -> Response)
    (k : State -> State) (s : State) : State * positive :=
  match st_resps s !! this with
  | Some r => (k (set_resp this (f r) s), this)
  | None => (s, this)
  end.

(** [status(code) { this.statusCode = code; return this; }] *)
Definition status (code : Z) (this : positive) (s : State) : State * positive :=
  with_resp this
    (fun r => {| statusCode := code; body := body r; contentType := contentType r;
                 resolver := resolver r |})
    (fun s' => s') s.

(** [json(data) { this.body = JSON.stringify(data);
    this.contentType = "application/json"; this.finish(); return this; }] *)
Definition json (data : list (string * jsval)) (this : positive) (s : State)
    : State * positive :=
  with_resp this
    (fun r => {| statusCode := statusCode r; body := JSON_stringify (JObj data);
                 contentType := "application/json"; resolver := resolver r |})
    (finish this) s.

(** [send(data) { this.body = data; this.finish(); return this; }] *)
Definition send (data : string) (this : positive) (s : State) : State * positive :=
  with_resp this
    (fun r => {| statusCode := statusCode r; body := data;
                 contentType := contentType r; resolver := resolver r |})
    (finish this) s.

(* ------------------------------------------------------------------ *)
(** ** Routes, middleware and routers *)

(** [Handler]: [(req, res) => Promise<void>], run to completion on the
    invocation's request and the response object [res]. *)
Definition Handler := positive -> State -> State.

Record Route := mkRoute { route_path : string; handler : Handler }.

(** What a call [middleware(req, res, next)] does: it returns after
    calling [next] as its last action ([MNext], with the state [next]
    is called in), returns without calling it ([MStop]), or throws
    ([MThrow], with the state at the throw). *)
Inductive mw_result :=
| MNext (s : State)
| MStop (s : State)
| MThrow (s : State).

(** A router: its [routes] object and its [middlewares] array.  An entry
    of the array is either the dispatch closure installed by the field
    initialiser, or the closure [fun] built by [use], which captured the
    index [idx] it computed and the user [middleware].  The middleware
    [useRouter] registers is the closure over [path] and [router]. *)
Inductive Router :=
| mkRouter (routes : gmap string (list Route)) (middlewares : list Step)
with Step :=
| Terminator
| UserStep (idx : nat) (m : Middleware)
with Middleware :=
| MwFn (f : positive -> State -> mw_result)
| MwMount (path : string) (router : Router).

Definition routes (r : Router) : gmap string (list Route) :=
  match r with mkRouter rs _ => rs end.

Definition middlewares (r : Router) : list Step :=
  match r with mkRouter _ ms => ms end.

(** [new Router()]: no routes, and the dispatch closure as the only step. *)
Definition new_Router : Router := mkRouter ∅ [Terminator].

(** The five keys the registration methods write. *)
Inductive Bucket := BPOST | BGET | BPUT | BDELETE | BALL.

Definition bucket_name (b : Bucket) : string :=
  match b with
  | BPOST => "POST"
  | BGET => "GET"
  | BPUT => "PUT"
  | BDELETE => "DELETE"
  | BALL => "ALL"
  end.

(** The body shared by [post], [get], [put], [delete] and [all]:
    create the bucket if missing, then [push] the route. *)
Definition register (b : Bucket) (path : string) (h : Handler) (r : Router) : Router :=
  let rt := mkRoute path h in
  mkRouter
    (<[bucket_name b := match routes r !! bucket_name b with
                        | Some l => (l ++ [rt])%list
                        | None => [rt]
                        end]> (routes r))
    (middlewares r).

Definition post := register BPOST.
Definition get := register BGET.
Definition put := register BPUT.
Definition delete := register BDELETE.
Definition all := register BALL.

(** The properties every object inherits from [Object.prototype]. *)
Definition object_prototype_keys : list string :=
  ["constructor"; "__defineGetter__"; "__defineSetter__"; "hasOwnProperty";
   "__lookupGetter__"; "__lookupSetter__"; "isPrototypeOf";
   "propertyIsEnumerable"; "toString"; "valueOf"; "__proto__";
   "toLocaleString"].

Definition inherited (k : string) : bool :=
  existsb (String.eqb k) object_prototype_keys.

(** The outcome of a route lookup: a route, [undefined], or a thrown
    TypeError. *)
Inductive lookup :=
| Found (rt : Route)
| NotFound
| TypeError.

Definition of_option (o : option Route) : lookup :=
  match o with
  | Some rt => Found rt
  | None => NotFound
  end.

(** [this.routes[method]?.find((route) => route.path === path)]: an own
    bucket is searched; a missing key gives [undefined], which [?.] turns
    into [undefined]; an inherited key gives a function (or, for
    "__proto__", [Object.prototype]), which has no [find] method, so the
    call throws. *)
Definition findRoute (r : Router) (method path : string) : lookup :=
  match routes r !! method with
  | Some l => of_option (List.find (fun rt => String.eqb (route_path rt) path) l)
  | None => if inherited method then TypeError else NotFound
  end.

(** [getRoute(req)]: the method's bucket, then the "ALL" bucket; a throw
    of the first lookup leaves the function. *)
Definition getRoute (r : Router) (q : Request) : lookup :=
  match findRoute r (req_method q) (req_path q) with
  | Found rt => Found rt
  | TypeError => TypeError
  | NotFound => findRoute r "ALL" (req_path q)
  end.

(** [executeHandler(route, req, res)]: [await route.handler(req, res)]. *)
Definition executeHandler (rt : Route) (res : positive) (s : State) : State :=
  handler rt res s.

(** The handler of [notFound]: [res.status(404).json({ message: "not found" })]. *)
Definition notFound_handler : Handler :=
  fun res s =>
    let (s1, this1) := status 404 res s in
    fst (json [("message", JStr "not found")] this1 s1).

(** [notFound(req, res)]. *)
Definition notFound (res : positive) (s : State) : State :=
  executeHandler (mkRoute (req_path (st_req s)) notFound_handler) res s.

(** [handleRequest(req, res)], an [async] function: a throw of
    [getRoute] rejects its promise before any effect, and no caller
    awaits that promise, so the state is left as it is. *)
Definition handleRequest (r : Router) (res : positive) (s : State) : State :=
  match getRoute r (st_req s) with
  | Found rt => executeHandler rt res s
  | NotFound => notFound res s
  | TypeError => s
  end.

(** One user middleware called with [(req, res, next)].  For a mounted
    router this is the closure built in [useRouter]; a throw of
    [router.getRoute(req)] happens after the prefix was removed. *)
Definition run_mw (m : Middleware) (res : positive) (s : State) : mw_result :=
  match m with
  | MwFn f => f res s
  | MwMount path router =>
      if negb (startsWith (req_path (st_req s)) path) then MNext s
      else
        let s1 := set_req (removePathPrefix path (st_req s)) s in
        match getRoute router (st_req s1) with
        | NotFound => MNext (set_req (addPathPrefix path (st_req s1)) s1)
        | Found _ => MStop (handleRequest router res s1)
        | TypeError => MThrow s1
        end
  end.

(** How a synchronous call returns: normally, or by a throw. *)
Inductive exec :=
| Done (s : State)
| Threw (s : State).

(** Calling [this.middlewares[k](req, res)].  The closure [fun] at
    position [k] calls [this.middlewares[idx + 1]] when its middleware
    calls [next], and a throw of that call comes back out of [next].
    Calling a missing entry throws a TypeError.  [None]: the [fuel]
    bound on the number of steps is exhausted. *)
Fixpoint run_from (fuel : nat) (r : Router) (k : nat) (res : positive) (s : State)
    : option exec :=
  match fuel with
  | O => None
  | S fuel' =>
      match middlewares r !! k with
      | Some Terminator => Some (Done (handleRequest r res s))
      | Some (UserStep idx m) =>
          match run_mw m res s with
          | MNext s' => run_from fuel' r (idx + 1) res s'
          | MStop s' => Some (Done s')
          | MThrow s' => Some (Threw s')
          end
      | None => Some (Threw s)
      end
  end.

(** [use(middleware)]: [idx = this.middlewares.length - 1] and
    [this.middlewares.splice(idx, 0, fun)]. *)
Definition use (m : Middleware) (r : Router) : Router :=
  let idx := List.length (middlewares r) - 1 in
  mkRouter (routes r)
    ((take idx (middlewares r) ++ UserStep idx m :: drop idx (middlewares r))%list).

(** [useRouter(path, router)] = [use((req, res, next) => ...)]. *)
Definition useRouter (path : string) (child : Router) (r : Router) : Router :=
  use (MwMount path child) r.

(** The state of the promise [getResponse] returns. *)
Inductive outcome :=
| Resolved (v : result)
| Rejected
| Pending.

(** [getResponse(req)] in a fresh invocation: the promise (slot 1) and the
    response object (address 1) are allocated, then the executor calls
    [this.middlewares[0]].  A settled slot gives the value; otherwise a
    throw out of the executor rejects the promise, and a normal return
    leaves it pending. *)
Definition getResponse (fuel : nat) (r : Router) (q : Request) : option outcome :=
  let s0 := {| st_req := q;
               st_resps := {[ 1%positive := new_Response 1%positive ]};
               st_promises := {[ 1%positive := None ]} |} in
  match run_from fuel r 0 1%positive s0 with
  | Some (Done s') =>
      Some (match st_promises s' !! 1%positive with
            | Some (Some v) => Resolved v
            | _ => Pending
            end)
  | Some (Threw s') =>
      Some (match st_promises s' !! 1%positive with
            | Some (Some v) => Resolved v
            | _ => Rejected
            end)
  | None => None
  end.

(** Building a router at startup: the registration calls, in order. *)
Inductive RouterOp :=
| OpUse (m : Middleware)
| OpUseRouter (path : string) (child : Router)
| OpRoute (b : Bucket) (path : string) (h : Handler).

(** One call; [use(path, router)] forwards to [useRouter]. *)
Definition apply_op (r : Router) (op : RouterOp) : Router :=
  match op with
  | OpUse m => use m r
  | OpUseRouter p c => useRouter p c r
  | OpRoute b p h => register b p h r
  end.

Definition build (ops : list RouterOp) : Router := fold_left apply_op ops new_Router.

(** The middleware registered by the [use] calls of [ops], in call order. *)
Fixpoint user_mws (ops : list RouterOp) : list Middleware :=
  match ops with
  | [] => []
  | OpUse m :: ops' => m :: user_mws ops'
  | OpUseRouter p c :: ops' => MwMount p c :: user_mws ops'
  | OpRoute _ _ _ :: ops' => user_mws ops'
  end.

(** Running middleware [ms] one after the other, each one passing on only
    when it calls [next], then the dispatch of [r]; a throw ends the run. *)
Fixpoint run_user (r : Router) (ms : list Middleware) (res : positive) (s : State) : exec :=
  match ms with
  | [] => Done (handleRequest r res s)
  | m :: ms' =>
      match run_mw m res s with
      | MNext s' => run_user r ms' res s'
      | MStop s' => Done s'
      | MThrow s' => Threw s'
      end
  end.
(* ------------------------------------------------------------------ *)
(** ** The adapter [parseRequest] *)

(** The fields of [APIGatewayProxyEvent] that [parseRequest] reads;
    [body] is [string | null]. *)
Record Event := mkEvent {
  httpMethod : string;
  ev_path : string;
  ev_headers : list (string * string);
  ev_body : option string;
  isBase64Encoded : bool
}.

(** [{ ...headers, [k]: v }]: an existing key keeps its place. *)
Fixpoint set_header (k v : string) (hs : list (string * string)) : list (string * string) :=
  match hs with
  | [] => [(k, v)]
  | (k', v') :: hs' =>
      if String.eqb k k' then (k, v) :: hs' else (k', v') :: set_header k v hs'
  end.

(** Truthiness of a [string | null]. *)
Definition truthy (b : option string) : bool :=
  match b with
  | Some s => negb (String.eqb s "")
  | None => false
  end.

Definition js_of_body (b : option string) : jsval :=
  match b with
  | Some s => JStr s
  | None => JNull
  end.

Section Adapter.

(** The invocation context and the platform functions [parseRequest]
    calls: [Buffer.from(s, "base64").toString("utf-8")], [JSON.parse]
    ([None] when it throws) and
    [encodeURIComponent(JSON.stringify({ ...context, getRemainingTimeInMillis: undefined }))]. *)
Variable Context : Type.
Variable base64_decode_utf8 : string -> string.
Variable JSON_parse : string -> option jsval.
Variable encode_context : Context -> string.

(** [parseRequest(event, context)]. *)
Definition parseRequest (ev : Event) (ctx : Context) : Request :=
  let body : option string :=
    if isBase64Encoded ev && truthy (ev_body ev)
    then option_map base64_decode_utf8 (ev_body ev)
    else ev_body ev in
  let body' : jsval :=
    match JSON_parse (default "" body) with
    | Some v => v
    | None => js_of_body body
    end in
  let headers := set_header "x-apigateway-context" (encode_context ctx) (ev_headers ev) in
  {| req_body := body'; req_headers := headers;
     req_method := httpMethod ev; req_path := ev_path ev |}.

End Adapter.

(* ------------------------------------------------------------------ *)
(** ** Reference definitions read from the specification *)

(** The registrations of [ops], in call order: (bucket, route). *)
Fixpoint route_log (ops : list RouterOp) : list (string * Route) :=
  match ops with
  | [] => []
  | OpRoute b p h :: ops' => (bucket_name b, mkRoute p h) :: route_log ops'
  | _ :: ops' => route_log ops'
  end.

(** Lookup as the specification words it: the first registration, in
    registration order, for the method with exactly the request path;
    failing that the first such registration for "ALL"; else not found. *)
Definition lookup_spec (log : list (string * Route)) (method path : string) : option Route :=
  match List.find (fun e => String.eqb e.1 method && String.eqb (route_path e.2) path) log with
  | Some e => Some e.2
  | None =>
      option_map snd
        (List.find (fun e => String.eqb e.1 "ALL" && String.eqb (route_path e.2) path) log)
  end.

(** The state a middleware call or a run ends in, however it ends. *)
Definition mw_state (m : mw_result) : State :=
  match m with MNext s | MStop s | MThrow s => s end.

Definition exec_state (e : exec) : State :=
  match e with Done s | Threw s => s end.

(** Mounting as the specification describes step (d): when the path
    starts with [path] and the child has a route for the stripped path,
    the mount step runs the child's whole middleware array from index 0
    on the stripped request. *)
Definition mount_runs_child_chain (path : string) (child : Router) (res : positive)
    (s : State) : Prop :=
  let s1 := set_req (removePathPrefix path (st_req s)) s in
  startsWith (req_path (st_req s)) path = true ->
  (exists rt, getRoute child (st_req s1) = Found rt) ->
  Some (mw_state (run_mw (MwMount path child) res s)) =
  option_map exec_state (run_from (List.length (middlewares child)) child 0 res s1).

(** The calls a program can make on a [Response] after it was handed out. *)
Inductive Call :=
| CStatus (code : Z)
| CJson (data : list (string * jsval))
| CSend (data : string).

Definition run_call (this : positive) (s : State) (c : Call) : State :=
  match c with
  | CStatus code => fst (status code this s)
  | CJson data => fst (json data this s)
  | CSend data => fst (send data this s)
  end.

Definition run_calls (calls : list Call) (this : positive) (s : State) : State :=
  fold_left (run_call this) calls s.

Definition dq : string := String "034" EmptyString.

(** The body the specification gives for not-found: [{"message":"not found"}]. *)
Definition not_found_body : string :=
  "{" ++ dq ++ "message" ++ dq ++ ":" ++ dq ++ "not found" ++ dq ++ "}".

(** A child router with one [use(fn)] middleware ([res.status(418)] then
    [next()]) and the route [GET /w] answering [res.send("ok")], mounted at
    "/api" in a parent router. *)
Definition teapot_mw : Middleware := MwFn (fun res s => MNext (fst (status 418 res s))).
Definition ok_handler : Handler := fun res s => fst (send "ok" res s).
Definition teapot_handler : Handler := fun res s => fst (send "teapot" res s).
(** A handler that returns without finishing the response. *)
Definition silent_handler : Handler := fun _ s => s.
Definition child_router : Router := build [OpUse teapot_mw; OpRoute BGET "/w" ok_handler].
Definition parent_router : Router := build [OpUseRouter "/api" child_router].
(** A router whose only route is [all("/w", ...)]. *)
Definition all_router : Router := build [OpRoute BALL "/w" ok_handler].

(** The state when the parent's first step runs for [GET /api/w]. *)
Definition api_state : State :=
  {| st_req := mkRequest JNull [] "GET" "/api/w";
     st_resps := {[ 1%positive := new_Response 1%positive ]};
     st_promises := {[ 1%positive := None ]} |}.

(** An instance of the platform functions of [parseRequest]: a base64
    decoder (standard alphabet, one [ascii] per decoded byte) and a JSON
    parser for the fragment without escapes, fractions or exponents. *)
Definition b64_value (c : ascii) : option nat :=
  let n := nat_of_ascii c in
  if Nat.leb 65 n && Nat.leb n 90 then Some (n - 65)
  else if Nat.leb 97 n && Nat.leb n 122 then Some (n - 71)
  else if Nat.leb 48 n && Nat.leb n 57 then Some (n + 4)
  else if Nat.eqb n 43 then Some 62
  else if Nat.eqb n 47 then Some 63
  else None.

Fixpoint b64_values (s : string) : list nat :=
  match s with
  | EmptyString => []
  | String c s' =>
      match b64_value c with
      | Some v => v :: b64_values s'
      | None => b64_values s'
      end
  end.

Fixpoint b64_bytes (vs : list nat) : list nat :=
  match vs with
  | a :: b :: c :: d :: vs' =>
      (a * 4 + b / 16) :: ((b mod 16) * 16 + c / 4) :: ((c mod 4) * 64 + d)
        :: b64_bytes vs'
  | [a; b; c] => [a * 4 + b / 16; (b mod 16) * 16 + c / 4]
  | [a; b] => [a * 4 + b / 16]
  | _ => []
  end.

Definition base64_decode (s : string) : string :=
  string_of_list_ascii (map ascii_of_nat (b64_bytes (b64_values s))).

Fixpoint skip_ws (s : string) : string :=
  match s with
  | String c s' =>
      let n := nat_of_ascii c in
      if Nat.eqb n 32 || Nat.eqb n 9 || Nat.eqb n 10 || Nat.eqb n 13 then skip_ws s' else s
  | EmptyString => EmptyString
  end.

Definition is_digit (c : ascii) : bool :=
  Nat.leb 48 (nat_of_ascii c) && Nat.leb (nat_of_ascii c) 57.

(** The digits at the front of [s], read into [acc]. *)
Fixpoint lex_digits (s : string) (acc : Z) : Z * string :=
  match s with
  | String c s' =>
      if is_digit c then lex_digits s' (acc * 10 + Z.of_nat (nat_of_ascii c - 48))
      else (acc, s)
  | EmptyString => (acc, s)
  end.

Definition lex_int (s : string) : option (Z * string) :=
  match s with
  | String c s' =>
      if Ascii.eqb c "-" then
        match s' with
        | String d _ => if is_digit d then let (z, r) := lex_digits s' 0 in Some (- z, r)
                        else None
        | EmptyString => None
        end%Z
      else if is_digit c then Some (lex_digits s 0%Z) else None
  | EmptyString => None
  end.

(** A string literal without escapes, after its opening quote. *)
Fixpoint lex_str (s : string) : option (string * string) :=
  match s with
  | String c s' =>
      if Ascii.eqb c "034" then Some (EmptyString, s')
      else if Ascii.eqb c "\" then None
      else match lex_str s' with
           | Some (t, r) => Some (String c t, r)
           | None => None
           end
  | EmptyString => None
  end.

Fixpoint parse_value (fuel : nat) (s : string) : option (jsval * string) :=
  match fuel with
  | O => None
  | S fuel' =>
      match skip_ws s with
      | String "n" (String "u" (String "l" (String "l" r))) => Some (JNull, r)
      | String "t" (String "r" (String "u" (String "e" r))) => Some (JBool true, r)
      | String "f" (String "a" (String "l" (String "s" (String "e" r)))) =>
          Some (JBool false, r)
      | String "034" r =>
          match lex_str r with Some (t, r') => Some (JStr t, r') | None => None end
      | String "[" r =>
          match skip_ws r with
          | String "]" r' => Some (JArr [], r')
          | _ => match parse_elems fuel' r [] with
                 | Some (xs, r') => Some (JArr xs, r')
                 | None => None
                 end
          end
      | String "{" r =>
          match skip_ws r with
          | String "}" r' => Some (JObj [], r')
          | _ => match parse_members fuel' r [] with
                 | Some (kvs, r') => Some (JObj kvs, r')
                 | None => None
                 end
          end
      | t => match lex_int t with Some (z, r) => Some (JNum z, r) | None => None end
      end
  end
with parse_elems (fuel : nat) (s : string) (acc : list jsval)
    : option (list jsval * string) :=
  match fuel with
  | O => None
  | S fuel' =>
      match parse_value fuel' s with
      | Some (v, r) =>
          match skip_ws r with
          | String "," r' => parse_elems fuel' r' (acc ++ [v])%list
          | String "]" r' => Some ((acc ++ [v])%list, r')
          | _ => None
          end
      | None => None
      end
  end
with parse_members (fuel : nat) (s : string) (acc : list (string * jsval))
    : option (list (string * jsval) * string) :=
  match fuel with
  | O => None
  | S fuel' =>
      match skip_ws s with
      | String "034" r =>
          match lex_str r with
          | Some (k, r1) =>
              match skip_ws r1 with
              | String ":" r2 =>
                  match parse_value fuel' r2 with
                  | Some (v, r3) =>
                      match skip_ws r3 with
                      | String "," r' => parse_members fuel' r' (acc ++ [(k, v)])%list
                      | String "}" r' => Some ((acc ++ [(k, v)])%list, r')
                      | _ => None
                      end
                  | None => None
                  end
              | _ => None
              end
          | None => None
          end
      | _ => None
      end
  end.

Definition JSON_parse_fragment (s : string) : option jsval :=
  match parse_value (S (String.length s)) s with
  | Some (v, r) => if String.eqb (skip_ws r) "" then Some v else None
  | None => None
  end.

(** Reading a header of the copied object: the first entry with that key. *)
Definition header_lookup (k : string) (hs : list (string * string)) : option string :=
  option_map snd (List.find (fun kv => String.eqb kv.1 k) hs).

(* ------------------------------------------------------------------ *)
(** ** Helper lemmas *)

Open Scope list_scope.

Lemma append_String (c : ascii) (p q : string) :
  (String c p ++ q = String c (p ++ q))%string.
Proof. reflexivity. Qed.

Lemma prefix_substring_from (p s : string) :
  String.prefix p s = true -> (p ++ substring_from (String.length p) s)%string = s.
Proof.
  revert s; induction p as [|c p IH]; intros s H; [reflexivity|].
  destruct s as [|c' s]; simpl in H; [discriminate|].
  destruct (ascii_dec c c') as [->|]; [|discriminate].
  rewrite append_String; simpl; f_equal; apply IH; exact H.
Qed.

Lemma add_remove_prefix (p : string) (r : Request) :
  startsWith (req_path r) p = true ->
  addPathPrefix p (removePathPrefix p r) = r.
Proof.
  intros H; destruct r as [b hs m path]; unfold addPathPrefix, removePathPrefix; simpl.
  unfold startsWith in H; simpl in H.
  rewrite (prefix_substring_from p path H); reflexivity.
Qed.

Lemma set_req_same (s : State) : set_req (st_req s) s = s.
Proof. destruct s; reflexivity. Qed.

Lemma set_req_set_req (q q' : Request) (s : State) :
  set_req q (set_req q' s) = set_req q s.
Proof. destruct s; reflexivity. Qed.

Lemma routes_use (m : Middleware) (r : Router) : routes (use m r) = routes r.
Proof. destruct r; reflexivity. Qed.

Lemma middlewares_register (b : Bucket) (p : string) (h : Handler) (r : Router) :
  middlewares (register b p h r) = middlewares r.
Proof. destruct r; reflexivity. Qed.

Lemma build_snoc (ops : list RouterOp) (op : RouterOp) :
  build (ops ++ [op]) = apply_op (build ops) op.
Proof. unfold build; rewrite fold_left_app; reflexivity. Qed.

Lemma route_log_app (ops ops' : list RouterOp) :
  route_log (ops ++ ops') = route_log ops ++ route_log ops'.
Proof.
  induction ops as [|[] ops IH]; simpl; rewrite ?IH; reflexivity.
Qed.

Lemma user_mws_app (ops ops' : list RouterOp) :
  user_mws (ops ++ ops') = user_mws ops ++ user_mws ops'.
Proof.
  induction ops as [|[] ops IH]; simpl; rewrite ?IH; reflexivity.
Qed.

(** The bucket [b] of a built router lists the registrations for [b] in
    call order. *)
Definition bucket (log : list (string * Route)) (b : string) : list Route :=
  map snd (List.filter (fun e => String.eqb e.1 b) log).

Lemma routes_build (ops : list RouterOp) (b : string) :
  default [] (routes (build ops) !! b) = bucket (route_log ops) b.
Proof.
  induction ops as [|op ops IH] using rev_ind.
  - reflexivity.
  - rewrite build_snoc, route_log_app; unfold bucket in *.
    rewrite List.filter_app, map_app, <- IH.
    destruct op as [m|p c|b' p h]; simpl.
    + rewrite app_nil_r; reflexivity.
    + rewrite app_nil_r; reflexivity.
    + unfold register; simpl.
      destruct (String.eqb_spec (bucket_name b') b) as [<-|Hne]; simpl.
      * rewrite lookup_insert_eq.
        destruct (routes (build ops) !! bucket_name b'); reflexivity.
      * rewrite lookup_insert_ne by congruence; rewrite app_nil_r; reflexivity.
Qed.

Lemma find_bucket (g : Route -> bool) (log : list (string * Route)) (b : string) :
  List.find g (bucket log b) =
  option_map snd (List.find (fun e => String.eqb e.1 b && g e.2) log).
Proof.
  unfold bucket; induction log as [|[b' rt] log IH]; simpl; [reflexivity|].
  destruct (String.eqb b' b); simpl; [|exact IH].
  destruct (g rt); simpl; [reflexivity|exact IH].
Qed.

Lemma inherited_bucket_name (b : Bucket) : inherited (bucket_name b) = false.
Proof. destruct b; reflexivity. Qed.

(** No registration writes an inherited key. *)
Lemma routes_build_inherited (ops : list RouterOp) (m : string) :
  inherited m = true -> routes (build ops) !! m = None.
Proof.
  intros Hm; induction ops as [|op ops IH] using rev_ind; [reflexivity|].
  rewrite build_snoc; destruct op as [m'|p c|b p h]; unfold apply_op, useRouter.
  - rewrite routes_use; exact IH.
  - rewrite routes_use; exact IH.
  - simpl; rewrite lookup_insert_ne; [exact IH|].
    intros He; rewrite <- He, inherited_bucket_name in Hm; discriminate.
Qed.

Lemma findRoute_build (ops : list RouterOp) (b path : string) :
  inherited b = false ->
  findRoute (build ops) b path =
  of_option (option_map snd
    (List.find (fun e => String.eqb e.1 b && String.eqb (route_path e.2) path)
       (route_log ops))).
Proof.
  intros Hb.
  rewrite <- (find_bucket (fun rt => String.eqb (route_path rt) path)), <- routes_build.
  unfold findRoute.
  destruct (routes (build ops) !! b); simpl; [|rewrite Hb]; reflexivity.
Qed.

Lemma findRoute_build_inherited (ops : list RouterOp) (m path : string) :
  inherited m = true -> findRoute (build ops) m path = TypeError.
Proof.
  intros Hm; unfold findRoute; rewrite (routes_build_inherited ops m Hm), Hm; reflexivity.
Qed.

Lemma middlewares_build (ops : list RouterOp) :
  middlewares (build ops) = imap UserStep (user_mws ops) ++ [Terminator].
Proof.
  induction ops as [|op ops IH] using rev_ind; [reflexivity|].
  rewrite build_snoc, user_mws_app.
  destruct op as [m|p c|b p h]; simpl.
  - rewrite IH, imap_app, length_app, length_imap; simpl.
    rewrite Nat.add_sub, take_app_length', ?drop_app_length' by (rewrite length_imap; lia).
    rewrite Nat.add_0_r, <- app_assoc; reflexivity.
  - rewrite IH, imap_app, length_app, length_imap; simpl.
    rewrite Nat.add_sub, take_app_length', ?drop_app_length' by (rewrite length_imap; lia).
    rewrite Nat.add_0_r, <- app_assoc; reflexivity.
  - rewrite app_nil_r; exact IH.
Qed.

(** From index [j], the array [imap UserStep ms ++ [Terminator]] runs
    the rest of [ms] in order and then the dispatch. *)
Lemma run_from_chain (r : Router) (ms : list Middleware) :
  middlewares r = imap UserStep ms ++ [Terminator] ->
  forall fuel j res s,
    j <= List.length ms -> List.length ms - j < fuel ->
    run_from fuel r j res s = Some (run_user r (drop j ms) res s).
Proof.
  intros Hr fuel; induction fuel as [|fuel IH]; intros j res s Hj Hf; [lia|].
  simpl; rewrite Hr.
  destruct (decide (j < List.length ms)) as [Hlt|Hge].
  - destruct (lookup_lt_is_Some_2 ms j Hlt) as [m Hm].
    rewrite lookup_app_l by (rewrite length_imap; lia).
    rewrite list_lookup_imap, Hm; simpl.
    rewrite (drop_S ms m j Hm); simpl.
    destruct (run_mw m res s) as [s'|s'|s']; try reflexivity.
    rewrite Nat.add_1_r; apply IH; lia.
  - assert (j = List.length ms) as -> by lia.
    rewrite lookup_app_r by (rewrite length_imap; lia).
    rewrite length_imap, Nat.sub_diag, drop_all; reflexivity.
Qed.

(** *** The response methods, unfolded *)

Definition with_status (code : Z) (r : Response) : Response :=
  {| statusCode := code; body := body r; contentType := contentType r; resolver := resolver r |}.

Definition with_json (data : list (string * jsval)) (r : Response) : Response :=
  {| statusCode := statusCode r; body := JSON_stringify (JObj data);
     contentType := "application/json"; resolver := resolver r |}.

Definition with_body (data : string) (r : Response) : Response :=
  {| statusCode := statusCode r; body := data; contentType := contentType r;
     resolver := resolver r |}.

Lemma status_eq (code : Z) (this : positive) (s : State) (r : Response) :
  st_resps s !! this = Some r ->
  status code this s = (set_resp this (with_status code r) s, this).
Proof. intros H; unfold status, with_resp; rewrite H; reflexivity. Qed.

Lemma json_eq (data : list (string * jsval)) (this : positive) (s : State) (r : Response) :
  st_resps s !! this = Some r ->
  json data this s =
  (resolve (resolver r) (resToResponse (with_json data r)) (set_resp this (with_json data r) s),
   this).
Proof.
  intros H; unfold json, with_resp, finish; rewrite H; simpl.
  rewrite lookup_insert_eq; reflexivity.
Qed.

Lemma send_eq (data : string) (this : positive) (s : State) (r : Response) :
  st_resps s !! this = Some r ->
  send data this s =
  (resolve (resolver r) (resToResponse (with_body data r)) (set_resp this (with_body data r) s),
   this).
Proof.
  intros H; unfold send, with_resp, finish; rewrite H; simpl.
  rewrite lookup_insert_eq; reflexivity.
Qed.

Lemma resolve_pending (p : positive) (v : result) (s : State) :
  st_promises s !! p = Some None ->
  st_promises (resolve p v s) = <[p := Some v]> (st_promises s).
Proof. intros H; unfold resolve; rewrite H; reflexivity. Qed.

Lemma resolve_resps (p : positive) (v : result) (s : State) :
  st_resps (resolve p v s) = st_resps s.
Proof. unfold resolve; destruct (st_promises s !! p) as [[]|]; reflexivity. Qed.

Lemma resolve_req (p : positive) (v : result) (s : State) :
  st_req (resolve p v s) = st_req s.
Proof. unfold resolve; destruct (st_promises s !! p) as [[]|]; reflexivity. Qed.

(** A settled promise keeps its value. *)
Lemma resolve_settled (p q : positive) (v w : result) (s : State) :
  st_promises s !! q = Some (Some w) ->
  st_promises (resolve p v s) !! q = Some (Some w).
Proof.
  intros H; unfold resolve.
  destruct (st_promises s !! p) as [[]|] eqn:Hp; simpl; try exact H.
  rewrite lookup_insert_ne; [exact H|congruence].
Qed.

Lemma resolve_settled_same (p : positive) (v w : result) (s : State) :
  st_promises s !! p = Some (Some w) -> resolve p v s = s.
Proof. intros H; unfold resolve; rewrite H; reflexivity. Qed.

Lemma run_call_settled (this q : positive) (w : result) (c : Call) (s : State) :
  st_promises s !! q = Some (Some w) ->
  st_promises (run_call this s c) !! q = Some (Some w).
Proof.
  intros H; destruct c as [code|data|data]; simpl;
    unfold status, json, send, with_resp, finish;
    destruct (st_resps s !! this) as [r|]; simpl; try exact H;
    rewrite ?lookup_insert_eq; apply resolve_settled; exact H.
Qed.

Lemma run_calls_settled (calls : list Call) (this q : positive) (w : result) (s : State) :
  st_promises s !! q = Some (Some w) ->
  st_promises (run_calls calls this s) !! q = Some (Some w).
Proof.
  unfold run_calls; revert s; induction calls as [|c calls IH]; intros s H; simpl;
    [exact H|].
  apply IH, run_call_settled, H.
Qed.

(** *** The dispatch on a miss, unfolded *)

Definition not_found_response (rp : Response) : Response :=
  {| statusCode := 404; body := not_found_body; contentType := "application/json";
     resolver := resolver rp |}.

Lemma handleRequest_miss (r : Router) (res : positive) (s : State) (rp : Response) :
  getRoute r (st_req s) = NotFound -> st_resps s !! res = Some rp ->
  handleRequest r res s =
  resolve (resolver rp) (resToResponse (not_found_response rp))
    (set_resp res (not_found_response rp) (set_resp res (with_status 404 rp) s)).
Proof.
  intros Hmiss Hres; unfold handleRequest; rewrite Hmiss.
  unfold notFound, executeHandler, notFound_handler; simpl.
  rewrite (status_eq 404 res s rp Hres).
  rewrite (json_eq _ res _ (with_status 404 rp)) by (simpl; apply lookup_insert_eq).
  reflexivity.
Qed.

Lemma handleRequest_miss_promise (r : Router) (res : positive) (s : State) (rp : Response) :
  getRoute r (st_req s) = NotFound -> st_resps s !! res = Some rp ->
  st_promises s !! resolver rp = Some None ->
  st_promises (handleRequest r res s) !! resolver rp =
  Some (Some (resToResponse (not_found_response rp))).
Proof.
  intros Hmiss Hres Hp; rewrite (handleRequest_miss r res s rp Hmiss Hres).
  rewrite resolve_pending by exact Hp.
  apply lookup_insert_eq.
Qed.

(* ------------------------------------------------------------------ *)
(** ** The claims *)

(** C1 (as stated: refuted).  Mounting a child router does not run the
    child's middleware array: at [GET /api/w] with the child's
    [use(fn)] middleware setting status 418, the mount step ends with
    status 200 while the child's full dispatch would give 418. *)
Lemma mount_skips_child_middleware :
  ~ mount_runs_child_chain "/api" child_router 1 api_state.
Proof.
  unfold mount_runs_child_chain; intros H.
  specialize (H eq_refl).
  assert (Hm : exists rt, getRoute child_router
                 (st_req (set_req (removePathPrefix "/api" (st_req api_state)) api_state)) =
               Found rt)
    by (exists (mkRoute "/w" ok_handler); reflexivity).
  apply H in Hm.
  apply (f_equal (option_map (fun s => option_map statusCode (st_resps s !! 1%positive)))) in Hm.
  vm_compute in Hm; discriminate.
Qed.

(** C1 (amended).  When the request path starts with the mount prefix and
    the child's route lookup returns a route [rt] for the stripped path,
    the mount step strips the prefix and runs only that route's handler
    (the child's [handleRequest], not the child's middleware array or
    its mounts) on the stripped request, and does not call [next]. *)
Theorem mount_delegates_to_handleRequest (path : string) (child : Router) (res : positive)
    (s : State) (rt : Route) :
  startsWith (req_path (st_req s)) path = true ->
  getRoute child (removePathPrefix path (st_req s)) = Found rt ->
  run_mw (MwMount path child) res s =
  MStop (executeHandler rt res (set_req (removePathPrefix path (st_req s)) s)).
Proof.
  intros Hpre Hroute; simpl; rewrite Hpre; simpl.
  rewrite Hroute; unfold handleRequest; simpl; rewrite Hroute; reflexivity.
Qed.

Lemma mount_delegates_to_handleRequest_witness :
  startsWith (req_path (st_req api_state)) "/api" = true /\
  getRoute child_router (removePathPrefix "/api" (st_req api_state)) =
    Found (mkRoute "/w" ok_handler) /\
  run_mw (MwMount "/api" child_router) 1 api_state =
  MStop (executeHandler (mkRoute "/w" ok_handler) 1
           (set_req (removePathPrefix "/api" (st_req api_state)) api_state)).
Proof.
  split; [reflexivity|]; split; [reflexivity|].
  apply mount_delegates_to_handleRequest; reflexivity.
Defined.

(** C2 (code bug).  For the method "toString", a name [Object.prototype]
    provides to every object, on the router whose only route is
    [all("/w", ...)]: the reference lookup returns that route, while
    [getRoute] throws a TypeError, because [this.routes["toString"]] is
    the inherited function and [?.] only guards [undefined]. *)
Theorem getRoute_throws_on_inherited_method :
  lookup_spec (route_log [OpRoute BALL "/w" ok_handler]) "toString" "/w" =
    Some (mkRoute "/w" ok_handler) /\
  getRoute all_router (mkRequest JNull [] "toString" "/w") = TypeError.
Proof. split; reflexivity. Qed.

(** C3 (as stated: refuted).  On the path "/a", removing and adding back
    "/b" yields "/b". *)
Lemma prefix_roundtrip_fails :
  addPathPrefix "/b" (removePathPrefix "/b" (mkRequest JNull [] "GET" "/a")) <>
  mkRequest JNull [] "GET" "/a".
Proof. vm_compute; discriminate. Qed.

(** C3 (amended).  When the path starts with [p], removing [p] and adding
    it back restores the request exactly. *)
Theorem prefix_roundtrip (p : string) (r : Request) :
  startsWith (req_path r) p = true ->
  addPathPrefix p (removePathPrefix p r) = r.
Proof. apply add_remove_prefix. Qed.

Lemma prefix_roundtrip_witness :
  startsWith "/api/w" "/api" = true /\
  addPathPrefix "/api" (removePathPrefix "/api" (mkRequest JNull [] "GET" "/api/w")) =
  mkRequest JNull [] "GET" "/api/w".
Proof. split; [reflexivity|]. apply prefix_roundtrip; reflexivity. Defined.

(** C4 (code bug).  The request [toString /api/w] reaches the child
    mounted at "/api", whose only route is [GET /w]: the child has no
    match for the stripped path, yet the mount step does not restore
    the path and call [next]; [router.getRoute(req)] throws after the
    prefix was removed, the path stays "/w", and the promise of
    [getResponse] is rejected. *)
Theorem mount_throws_on_inherited_method :
  lookup_spec (route_log [OpUse teapot_mw; OpRoute BGET "/w" ok_handler]) "toString" "/w" =
    None /\
  run_mw (MwMount "/api" child_router) 1
    (set_req (mkRequest JNull [] "toString" "/api/w") api_state) =
    MThrow (set_req (mkRequest JNull [] "toString" "/w") api_state) /\
  getResponse 2 parent_router (mkRequest JNull [] "toString" "/api/w") = Some Rejected.
Proof. split; [reflexivity|]; split; reflexivity. Qed.

(** C5.  For every router built by registration calls: its array is the
    [use] steps in call order, each holding its own index, followed by
    the dispatch closure; a further [use] inserts right before the
    dispatch closure and a route registration leaves the array alone;
    and running the array from index 0 runs the user middleware in
    call order, each passing on only when it calls [next], then the
    route dispatch. *)
Theorem middleware_chain_invariant (ops : list RouterOp) :
  middlewares (build ops) = imap UserStep (user_mws ops) ++ [Terminator] /\
  (forall m : Middleware,
     middlewares (use m (build ops)) =
     removelast (middlewares (build ops)) ++
       [UserStep (List.length (middlewares (build ops)) - 1) m; Terminator]) /\
  (forall (b : Bucket) (p : string) (h : Handler),
     middlewares (register b p h (build ops)) = middlewares (build ops)) /\
  (forall (fuel : nat) (res : positive) (s : State),
     List.length (user_mws ops) < fuel ->
     run_from fuel (build ops) 0 res s = Some (run_user (build ops) (user_mws ops) res s)).
Proof.
  pose proof (middlewares_build ops) as Hm.
  split; [exact Hm|]; split; [|split].
  - intros m; unfold use; simpl; rewrite Hm.
    rewrite removelast_last, length_app, length_imap; simpl.
    rewrite Nat.add_sub, take_app_length', drop_app_length' by (rewrite length_imap; lia).
    reflexivity.
  - intros b p h; apply middlewares_register.
  - intros fuel res s Hf.
    rewrite (run_from_chain (build ops) (user_mws ops) Hm fuel 0 res s) by lia.
    reflexivity.
Qed.

Lemma middleware_chain_invariant_witness :
  List.length (user_mws [OpUse teapot_mw; OpRoute BGET "/w" ok_handler]) < 3 /\
  run_from 3 (build [OpUse teapot_mw; OpRoute BGET "/w" ok_handler]) 0 1 api_state =
  Some (run_user (build [OpUse teapot_mw; OpRoute BGET "/w" ok_handler])
          (user_mws [OpUse teapot_mw; OpRoute BGET "/w" ok_handler]) 1 api_state).
Proof.
  split; [simpl; lia|].
  apply (middleware_chain_invariant [OpUse teapot_mw; OpRoute BGET "/w" ok_handler]).
  simpl; lia.
Defined.

(** C6 (code bug).  On a router with no routes, the request
    [toString /w] matches no route, yet the not-found handler does not
    run: [getRoute] throws inside the [async] [handleRequest], whose
    rejected promise nobody awaits, and the invocation never resolves. *)
Theorem dispatch_hangs_on_inherited_method :
  lookup_spec (route_log []) "toString" "/w" = None /\
  getRoute new_Router (mkRequest JNull [] "toString" "/w") = TypeError /\
  getResponse 1 new_Router (mkRequest JNull [] "toString" "/w") = Some Pending.
Proof. split; [reflexivity|]; split; reflexivity. Qed.

(** C7.  [json(data)] returns the same object, sets the body to
    [JSON.stringify(data)] and the content type to application/json,
    and finishes once: a pending promise is settled with the response
    as it stands after the call, a settled one is left as it is; after
    that first settlement, any further [status], [json] or [send] calls
    leave the settled result unchanged. *)
Theorem json_finishes_once (data : list (string * jsval)) (this : positive) (s : State)
    (r : Response) :
  st_resps s !! this = Some r ->
  let r' := {| statusCode := statusCode r; body := JSON_stringify (JObj data);
               contentType := "application/json"; resolver := resolver r |} in
  snd (json data this s) = this /\
  st_resps (fst (json data this s)) !! this = Some r' /\
  st_req (fst (json data this s)) = st_req s /\
  (st_promises s !! resolver r = Some None ->
   st_promises (fst (json data this s)) = <[resolver r := Some (resToResponse r')]> (st_promises s) /\
   forall calls : list Call,
     st_promises (run_calls calls this (fst (json data this s))) !! resolver r =
     Some (Some (resToResponse r'))) /\
  (forall v : result, st_promises s !! resolver r = Some (Some v) ->
   st_promises (fst (json data this s)) = st_promises s).
Proof.
  intros Hr r'; rewrite (json_eq data this s r Hr); simpl.
  split; [reflexivity|]; split; [|split; [|split]].
  - rewrite resolve_resps; simpl; apply lookup_insert_eq.
  - rewrite resolve_req; reflexivity.
  - intros Hp.
    assert (Hset : st_promises (resolve (resolver r) (resToResponse (with_json data r))
                                  (set_resp this (with_json data r) s)) =
                   <[resolver r := Some (resToResponse r')]> (st_promises s))
      by (rewrite resolve_pending by exact Hp; reflexivity).
    split; [exact Hset|].
    intros calls; apply run_calls_settled; rewrite Hset; apply lookup_insert_eq.
  - intros v Hp; rewrite (resolve_settled_same _ _ v) by exact Hp; reflexivity.
Qed.

Lemma json_finishes_once_witness :
  st_resps api_state !! 1%positive = Some (new_Response 1) /\
  st_promises (run_calls [CStatus 500; CSend "late"] 1
                 (fst (json [("x", JNum 1)] 1 api_state))) !! 1%positive =
  Some (Some {| res_statusCode := 200; res_body := JSON_stringify (JObj [("x", JNum 1)]);
                res_headers := [("Content-Type", "application/json")] |}).
Proof.
  split; [reflexivity|].
  apply (proj2 (proj1 (proj2 (proj2 (proj2
    (json_finishes_once [("x", JNum 1)] 1 api_state (new_Response 1) eq_refl))))
    eq_refl)).
Defined.

(** C9.  [status(code)] returns the same object, sets only the status
    code, and does not finish: the promises are untouched.  [json] and
    [send] both settle a pending promise. *)
Theorem status_does_not_finish (code : Z) (this : positive) (s : State) (r : Response) :
  st_resps s !! this = Some r ->
  snd (status code this s) = this /\
  st_resps (fst (status code this s)) !! this =
    Some {| statusCode := code; body := body r; contentType := contentType r;
            resolver := resolver r |} /\
  st_req (fst (status code this s)) = st_req s /\
  st_promises (fst (status code this s)) = st_promises s /\
  (st_promises s !! resolver r = Some None ->
   (forall data : list (string * jsval),
      exists v, st_promises (fst (json data this s)) !! resolver r = Some (Some v)) /\
   (forall data : string,
      exists v, st_promises (fst (send data this s)) !! resolver r = Some (Some v))).
Proof.
  intros Hr; rewrite (status_eq code this s r Hr); simpl.
  split; [reflexivity|]; split; [apply lookup_insert_eq|]; split; [reflexivity|].
  split; [reflexivity|].
  intros Hp; split; intros data.
  - rewrite (json_eq data this s r Hr); simpl; eexists.
    rewrite resolve_pending by exact Hp; apply lookup_insert_eq.
  - rewrite (send_eq data this s r Hr); simpl; eexists.
    rewrite resolve_pending by exact Hp; apply lookup_insert_eq.
Qed.

Lemma status_does_not_finish_witness :
  st_resps api_state !! 1%positive = Some (new_Response 1) /\
  st_promises (fst (status 404 1 api_state)) = st_promises api_state.
Proof.
  split; [reflexivity|].
  apply (status_does_not_finish 404 1 api_state (new_Response 1) eq_refl).
Defined.

(** C8.  For any base64 decoder mapping "" to "" and any JSON parser
    rejecting "" (as [Buffer] and [JSON.parse] do), the request body is
    the event body, decoded first when the event says base64, then
    parsed: the parsed value on success, the text itself on failure
    ([null] stays [null]). *)
Theorem parseRequest_body (Context : Type) (decode : string -> string)
    (parse : string -> option jsval) (enc : Context -> string) :
  decode "" = "" -> parse "" = None ->
  forall (ev : Event) (ctx : Context),
  req_body (parseRequest Context decode parse enc ev ctx) =
  match option_map (fun b => if isBase64Encoded ev then decode b else b) (ev_body ev) with
  | Some t => match parse t with Some v => v | None => JStr t end
  | None => JNull
  end.
Proof.
  intros Hdec Hparse ev ctx.
  destruct ev as [m p hs [b|] [|]]; unfold parseRequest; simpl.
  - destruct (String.eqb_spec b "") as [->|Hne]; simpl.
    + rewrite Hdec; destruct (parse ""); reflexivity.
    + destruct (parse (decode b)); reflexivity.
  - destruct (parse b); reflexivity.
  - rewrite Hparse; reflexivity.
  - rewrite Hparse; reflexivity.
Qed.

Lemma parseRequest_body_witness :
  base64_decode "" = "" /\ JSON_parse_fragment "" = None /\
  req_body (parseRequest unit base64_decode JSON_parse_fragment (fun _ => "")
              (mkEvent "POST" "/" [] (Some "eyJhIjoxfQ==") true) tt) =
    JObj [("a", JNum 1)] /\
  req_body (parseRequest unit base64_decode JSON_parse_fragment (fun _ => "")
              (mkEvent "POST" "/" [] (Some "aGVsbG8=") true) tt) =
    JStr "hello".
Proof.
  split; [reflexivity|]; split; [reflexivity|]; split.
  - rewrite (parseRequest_body unit base64_decode JSON_parse_fragment (fun _ => "")
               eq_refl eq_refl); reflexivity.
  - rewrite (parseRequest_body unit base64_decode JSON_parse_fragment (fun _ => "")
               eq_refl eq_refl); reflexivity.
Defined.

(** C10.  When [JSON.parse("")] throws, an event whose body is [null]
    gives a request whose body is [null], whatever [isBase64Encoded]. *)
Theorem parseRequest_null_body (Context : Type) (decode : string -> string)
    (parse : string -> option jsval) (enc : Context -> string) :
  parse "" = None ->
  forall (ev : Event) (ctx : Context),
  ev_body ev = None ->
  req_body (parseRequest Context decode parse enc ev ctx) = JNull.
Proof.
  intros Hparse ev ctx Hnull; unfold parseRequest; rewrite Hnull.
  rewrite andb_false_r; simpl; rewrite Hparse; reflexivity.
Qed.

Lemma parseRequest_null_body_witness :
  JSON_parse_fragment "" = None /\
  req_body (parseRequest unit base64_decode JSON_parse_fragment (fun _ => "")
              (mkEvent "GET" "/" [] None true) tt) = JNull.
Proof.
  split; [reflexivity|].
  apply (parseRequest_null_body unit base64_decode JSON_parse_fragment (fun _ => "")
           eq_refl (mkEvent "GET" "/" [] None true) tt eq_refl).
Defined.

(* ------------------------------------------------------------------ *)
(** ** Further properties of the code *)

Lemma find_snoc {A} (f : A -> bool) (l : list A) (x : A) :
  List.find f (l ++ [x]) =
  match List.find f l with Some y => Some y | None => if f x then Some x else None end.
Proof.
  induction l as [|y l IH]; simpl; [reflexivity|].
  destruct (f y); [reflexivity|exact IH].
Qed.

Lemma findRoute_register_same (b : Bucket) (p path : string) (h : Handler) (r : Router) :
  findRoute (register b p h r) (bucket_name b) path =
  match findRoute r (bucket_name b) path with
  | Found rt => Found rt
  | _ => if String.eqb p path then Found (mkRoute p h) else NotFound
  end.
Proof.
  unfold findRoute, register; simpl; rewrite lookup_insert_eq.
  destruct (routes r !! bucket_name b) as [l|]; simpl.
  - rewrite find_snoc; destruct (List.find _ l); simpl; [reflexivity|].
    destruct (String.eqb p path); reflexivity.
  - rewrite inherited_bucket_name; simpl.
    destruct (String.eqb p path); reflexivity.
Qed.

Lemma findRoute_register_other (b : Bucket) (m p path : string) (h : Handler) (r : Router) :
  bucket_name b <> m -> findRoute (register b p h r) m path = findRoute r m path.
Proof.
  intros Hne; unfold findRoute, register; simpl.
  rewrite lookup_insert_ne by exact Hne; reflexivity.
Qed.

Lemma getRoute_build_inherited (ops : list RouterOp) (q : Request) :
  inherited (req_method q) = true -> getRoute (build ops) q = TypeError.
Proof.
  intros Hm; unfold getRoute; rewrite findRoute_build_inherited by exact Hm; reflexivity.
Qed.

Lemma substring_from_append (p s : string) :
  substring_from (String.length p) (p ++ s) = s.
Proof. induction p as [|c p IH]; [reflexivity|]; rewrite append_String; exact IH. Qed.

Lemma substring_from_past_end (n : nat) (s : string) :
  String.length s <= n -> substring_from n s = "".
Proof.
  revert s; induction n as [|n IH]; intros [|c s] H; simpl in *; try reflexivity; try lia.
  apply IH; lia.
Qed.

(** X1.  Registering [p] in bucket [b] leaves an existing match in [b]
    for any path in place, and otherwise makes [p] (and only [p]) found. *)
Theorem register_then_findRoute (b : Bucket) (p path : string) (h : Handler) (r : Router) :
  findRoute (register b p h r) (bucket_name b) path =
  match findRoute r (bucket_name b) path with
  | Found rt => Found rt
  | _ => if String.eqb p path then Found (mkRoute p h) else NotFound
  end.
Proof. apply findRoute_register_same. Qed.

(** X2.  Registering in one bucket does not change lookups under any
    other key. *)
Theorem register_other_bucket (b : Bucket) (m p path : string) (h : Handler) (r : Router) :
  bucket_name b <> m -> findRoute (register b p h r) m path = findRoute r m path.
Proof. apply findRoute_register_other. Qed.

Lemma register_other_bucket_witness :
  bucket_name BGET <> "POST" /\
  findRoute (register BGET "/w" ok_handler child_router) "POST" "/w" =
  findRoute child_router "POST" "/w".
Proof.
  split; [discriminate|]. apply register_other_bucket; discriminate.
Defined.

(** X3.  A route [getRoute] returns has exactly the request path and was
    registered under the request method or under "ALL". *)
Theorem getRoute_sound (ops : list RouterOp) (q : Request) (rt : Route) :
  getRoute (build ops) q = Found rt ->
  route_path rt = req_path q /\
  (In (req_method q, rt) (route_log ops) \/ In ("ALL", rt) (route_log ops)).
Proof.
  unfold getRoute.
  destruct (inherited (req_method q)) eqn:Hi.
  { rewrite findRoute_build_inherited by exact Hi; discriminate. }
  rewrite (findRoute_build ops (req_method q)) by exact Hi.
  rewrite (findRoute_build ops "ALL") by reflexivity.
  destruct (List.find _ (route_log ops)) as [[b rt1]|] eqn:E1; simpl.
  - intros [= <-]; apply find_some in E1 as [Hin Hf]; simpl in Hf.
    apply andb_prop in Hf as [Hb Hp].
    apply String.eqb_eq in Hb, Hp; subst; split; [exact Hp|left; exact Hin].
  - destruct (List.find (fun e => String.eqb e.1 "ALL" && String.eqb (route_path e.2) (req_path q))
               (route_log ops)) as [[b rt1]|] eqn:E2; simpl; [|intros ?; discriminate].
    intros [= <-]; apply find_some in E2 as [Hin Hf]; simpl in Hf.
    apply andb_prop in Hf as [Hb Hp].
    apply String.eqb_eq in Hb, Hp; subst; split; [exact Hp|right; exact Hin].
Qed.

Lemma getRoute_sound_witness :
  getRoute (build [OpUse teapot_mw; OpRoute BGET "/w" ok_handler]) (mkRequest JNull [] "GET" "/w")
    = Found (mkRoute "/w" ok_handler) /\
  route_path (mkRoute "/w" ok_handler) = "/w".
Proof.
  split; [reflexivity|].
  exact (proj1 (getRoute_sound [OpUse teapot_mw; OpRoute BGET "/w" ok_handler]
                  (mkRequest JNull [] "GET" "/w") (mkRoute "/w" ok_handler) eq_refl)).
Defined.

(** X4.  A route registered under the request's own method takes
    precedence over any "ALL" route for the same path, even one
    registered earlier, as long as the method bucket had no match. *)
Theorem method_route_overrides_all (b : Bucket) (q : Request) (h : Handler) (r : Router) :
  bucket_name b = req_method q ->
  findRoute r (req_method q) (req_path q) = NotFound ->
  getRoute (register b (req_path q) h r) q = Found (mkRoute (req_path q) h).
Proof.
  intros Hb Hnone; unfold getRoute; rewrite <- Hb in *.
  rewrite findRoute_register_same, Hnone, String.eqb_refl; reflexivity.
Qed.

Lemma method_route_overrides_all_witness :
  bucket_name BGET = req_method (mkRequest JNull [] "GET" "/w") /\
  findRoute (build [OpRoute BALL "/w" ok_handler]) "GET" "/w" = NotFound /\
  getRoute (register BGET "/w" teapot_handler (build [OpRoute BALL "/w" ok_handler]))
    (mkRequest JNull [] "GET" "/w") = Found (mkRoute "/w" teapot_handler).
Proof.
  split; [reflexivity|]; split; [reflexivity|].
  exact (method_route_overrides_all BGET (mkRequest JNull [] "GET" "/w") teapot_handler
           (build [OpRoute BALL "/w" ok_handler]) eq_refl eq_refl).
Defined.

(** X5.  Registering an "ALL" route never changes a lookup that already
    succeeds. *)
Theorem all_keeps_existing_match (p : string) (h : Handler) (r : Router) (q : Request)
    (rt : Route) :
  getRoute r q = Found rt -> getRoute (all p h r) q = Found rt.
Proof.
  pose proof (findRoute_register_same BALL p (req_path q) h r) as Eall.
  cbn [bucket_name] in Eall.
  unfold all, getRoute; intros Hr.
  destruct (String.eqb_spec (req_method q) "ALL") as [Hm|Hm].
  - rewrite Hm in *; rewrite Eall.
    destruct (findRoute r "ALL" (req_path q)); simpl in *; congruence.
  - rewrite findRoute_register_other by (simpl; congruence).
    destruct (findRoute r (req_method q) (req_path q)); simpl in *; try congruence.
    rewrite Eall, Hr; reflexivity.
Qed.

Lemma all_keeps_existing_match_witness :
  getRoute child_router (mkRequest JNull [] "GET" "/w") = Found (mkRoute "/w" ok_handler) /\
  getRoute (all "/w" teapot_handler child_router) (mkRequest JNull [] "GET" "/w") =
    Found (mkRoute "/w" ok_handler).
Proof.
  split; [reflexivity|].
  apply all_keeps_existing_match; reflexivity.
Defined.

(** X6.  Adding a prefix and then removing it gives back the request,
    for every prefix and path. *)
Theorem remove_after_add_prefix (p : string) (r : Request) :
  removePathPrefix p (addPathPrefix p r) = r.
Proof.
  destruct r as [b hs m path]; unfold removePathPrefix, addPathPrefix; simpl.
  rewrite substring_from_append; reflexivity.
Qed.

(** X7.  Removing a prefix at least as long as the path leaves the empty
    path, whatever the prefix's characters. *)
Theorem remove_long_prefix_empties_path (p : string) (r : Request) :
  String.length (req_path r) <= String.length p ->
  req_path (removePathPrefix p r) = "".
Proof. intros H; apply substring_from_past_end, H. Qed.

Lemma remove_long_prefix_empties_path_witness :
  String.length "/a" <= String.length "/xyz" /\
  req_path (removePathPrefix "/xyz" (mkRequest JNull [] "GET" "/a")) = "".
Proof.
  split; [simpl; lia|].
  apply (remove_long_prefix_empties_path "/xyz" (mkRequest JNull [] "GET" "/a")); simpl; lia.
Defined.

(** X8.  The chain [res.status(code).json(data)] on a pending response
    settles it with that status code, the JSON body and the JSON
    content type. *)
Theorem status_then_json (code : Z) (data : list (string * jsval)) (this : positive)
    (s : State) (r : Response) :
  st_resps s !! this = Some r -> st_promises s !! resolver r = Some None ->
  st_promises (fst (json data (snd (status code this s)) (fst (status code this s))))
    !! resolver r =
  Some (Some {| res_statusCode := code; res_body := JSON_stringify (JObj data);
                res_headers := [("Content-Type", "application/json")] |}).
Proof.
  intros Hr Hp; rewrite (status_eq code this s r Hr); simpl.
  rewrite (json_eq data this _ (with_status code r)) by (simpl; apply lookup_insert_eq).
  simpl; rewrite resolve_pending by exact Hp; apply lookup_insert_eq.
Qed.

Lemma status_then_json_witness :
  st_resps api_state !! 1%positive = Some (new_Response 1) /\
  st_promises api_state !! 1%positive = Some None /\
  st_promises (fst (json [("ok", JBool true)] (snd (status 201 1 api_state))
                     (fst (status 201 1 api_state)))) !! 1%positive =
  Some (Some {| res_statusCode := 201; res_body := JSON_stringify (JObj [("ok", JBool true)]);
                res_headers := [("Content-Type", "application/json")] |}).
Proof.
  split; [reflexivity|]; split; [reflexivity|].
  exact (status_then_json 201 [("ok", JBool true)] 1 api_state (new_Response 1) eq_refl eq_refl).
Defined.

Lemma getResponse_no_middleware (ops : list RouterOp) (q : Request) (fuel : nat) :
  user_mws ops = [] -> 0 < fuel ->
  getResponse fuel (build ops) q =
  Some (match st_promises (handleRequest (build ops) 1
                 {| st_req := q; st_resps := {[1%positive := new_Response 1]};
                    st_promises := {[1%positive := None]} |}) !! 1%positive with
        | Some (Some v) => Resolved v
        | _ => Pending
        end).
Proof.
  intros Hops Hfuel; unfold getResponse.
  pose proof (middlewares_build ops) as Hm; rewrite Hops in Hm.
  rewrite (run_from_chain (build ops) [] Hm fuel 0) by (simpl; lia); reflexivity.
Qed.

(** X9.  On a router without middleware, a request whose matched route
    answers with [res.send(d)] resolves the invocation to status 200,
    body [d] and content type text/html (the [Response] defaults). *)
Theorem dispatch_send_defaults (ops : list RouterOp) (q : Request) (fuel : nat) (rt : Route)
    (d : string) :
  user_mws ops = [] -> 0 < fuel -> getRoute (build ops) q = Found rt ->
  (forall res s, handler rt res s = fst (send d res s)) ->
  getResponse fuel (build ops) q =
  Some (Resolved {| res_statusCode := 200; res_body := d;
                    res_headers := [("Content-Type", "text/html")] |}).
Proof.
  intros Hops Hfuel Hq Hh; rewrite getResponse_no_middleware by assumption.
  unfold handleRequest; simpl; rewrite Hq; unfold executeHandler; rewrite Hh.
  rewrite (send_eq d 1 _ (new_Response 1)) by apply lookup_insert_eq; simpl.
  rewrite resolve_pending by apply lookup_insert_eq.
  rewrite lookup_insert_eq; reflexivity.
Qed.

Lemma dispatch_send_defaults_witness :
  getResponse 1 (build [OpRoute BGET "/w" ok_handler]) (mkRequest JNull [] "GET" "/w") =
  Some (Resolved {| res_statusCode := 200; res_body := "ok";
                    res_headers := [("Content-Type", "text/html")] |}).
Proof.
  apply (dispatch_send_defaults [OpRoute BGET "/w" ok_handler] (mkRequest JNull [] "GET" "/w")
           1 (mkRoute "/w" ok_handler) "ok"); [reflexivity | lia | reflexivity |].
  intros res s; reflexivity.
Defined.

(** X10.  On a router without middleware, when the matched handler never
    finishes the response, the invocation never resolves. *)
Theorem dispatch_hangs_without_finish (ops : list RouterOp) (q : Request) (fuel : nat)
    (rt : Route) :
  user_mws ops = [] -> 0 < fuel -> getRoute (build ops) q = Found rt ->
  (forall res s, st_promises (handler rt res s) = st_promises s) ->
  getResponse fuel (build ops) q = Some Pending.
Proof.
  intros Hops Hfuel Hq Hh; rewrite getResponse_no_middleware by assumption.
  unfold handleRequest; simpl; rewrite Hq; unfold executeHandler; rewrite Hh.
  simpl; rewrite lookup_singleton_eq; reflexivity.
Qed.

Lemma dispatch_hangs_without_finish_witness :
  getResponse 1 (build [OpRoute BGET "/w" silent_handler]) (mkRequest JNull [] "GET" "/w") =
  Some Pending.
Proof.
  apply (dispatch_hangs_without_finish [OpRoute BGET "/w" silent_handler]
           (mkRequest JNull [] "GET" "/w") 1 (mkRoute "/w" silent_handler));
    [reflexivity | lia | reflexivity |].
  intros res s; reflexivity.
Defined.

(** X11.  Two routers mounted at the same prefix: when the first has no
    route for the stripped path and the second has route [rt], the
    second's handler runs on the path stripped once, and the rest of the
    chain does not run. *)
Theorem shared_prefix_mounts (r : Router) (path : string) (c1 c2 : Router)
    (ms : list Middleware) (res : positive) (s : State) (rt : Route) :
  startsWith (req_path (st_req s)) path = true ->
  getRoute c1 (removePathPrefix path (st_req s)) = NotFound ->
  getRoute c2 (removePathPrefix path (st_req s)) = Found rt ->
  run_user r (MwMount path c1 :: MwMount path c2 :: ms) res s =
  Done (executeHandler rt res (set_req (removePathPrefix path (st_req s)) s)).
Proof.
  intros Hpre H1 H2.
  assert (E1 : run_mw (MwMount path c1) res s = MNext s).
  { simpl; rewrite Hpre; simpl; rewrite H1, set_req_set_req; simpl.
    rewrite add_remove_prefix by exact Hpre; rewrite set_req_same; reflexivity. }
  assert (E2 : run_mw (MwMount path c2) res s =
               MStop (handleRequest c2 res (set_req (removePathPrefix path (st_req s)) s))).
  { simpl; rewrite Hpre; simpl; rewrite H2; reflexivity. }
  cbn [run_user]; rewrite E1; cbn [run_user]; rewrite E2.
  unfold handleRequest; simpl; rewrite H2; reflexivity.
Qed.

Lemma shared_prefix_mounts_witness :
  run_user parent_router
    [MwMount "/api" (build [OpRoute BGET "/v" ok_handler]); MwMount "/api" child_router]
    1 api_state =
  Done (executeHandler (mkRoute "/w" ok_handler) 1
          (set_req (removePathPrefix "/api" (st_req api_state)) api_state)).
Proof. apply shared_prefix_mounts; reflexivity. Defined.

Lemma set_header_same (k v : string) (hs : list (string * string)) :
  header_lookup k (set_header k v hs) = Some v.
Proof.
  unfold header_lookup; induction hs as [|[k' v'] hs IH]; simpl.
  - rewrite String.eqb_refl; reflexivity.
  - destruct (String.eqb_spec k k') as [<-|Hne]; simpl.
    + rewrite String.eqb_refl; reflexivity.
    + destruct (String.eqb_spec k' k); [congruence|exact IH].
Qed.

Lemma set_header_other (k k' v : string) (hs : list (string * string)) :
  k' <> k -> header_lookup k' (set_header k v hs) = header_lookup k' hs.
Proof.
  intros Hne; unfold header_lookup; induction hs as [|[k0 v0] hs IH]; simpl.
  - destruct (String.eqb_spec k k'); [congruence|reflexivity].
  - destruct (String.eqb_spec k k0) as [<-|Hne0]; simpl.
    + destruct (String.eqb_spec k k'); [congruence|reflexivity].
    + destruct (String.eqb k0 k'); [reflexivity|exact IH].
Qed.

(** X12.  The request [parseRequest] builds carries the event's method
    and path, the encoded context under "x-apigateway-context" (replacing
    any such event header), and every other event header unchanged. *)
Theorem parseRequest_headers (Context : Type) (decode : string -> string)
    (parse : string -> option jsval) (enc : Context -> string) (ev : Event) (ctx : Context) :
  let q := parseRequest Context decode parse enc ev ctx in
  req_method q = httpMethod ev /\ req_path q = ev_path ev /\
  header_lookup "x-apigateway-context" (req_headers q) = Some (enc ctx) /\
  (forall k : string, k <> "x-apigateway-context" ->
     header_lookup k (req_headers q) = header_lookup k (ev_headers ev)).
Proof.
  simpl; split; [reflexivity|]; split; [reflexivity|]; split.
  - apply set_header_same.
  - intros k Hk; apply set_header_other, Hk.
Qed.

Lemma parseRequest_headers_witness :
  "accept" <> "x-apigateway-context" /\
  header_lookup "accept"
    (req_headers (parseRequest unit base64_decode JSON_parse_fragment (fun _ => "ctx")
       (mkEvent "GET" "/" [("accept", "*/*"); ("x-apigateway-context", "spoofed")] None false)
       tt)) = Some "*/*".
Proof.
  split; [discriminate|].
  apply (proj2 (proj2 (proj2 (parseRequest_headers unit base64_decode JSON_parse_fragment
    (fun _ => "ctx")
    (mkEvent "GET" "/" [("accept", "*/*"); ("x-apigateway-context", "spoofed")] None false)
    tt)))).
  discriminate.
Defined.

(** X13.  A router mounted at the empty prefix sees every request with
    its path unchanged: it handles the requests its lookup matches,
    passes every other one on untouched, and throws where its lookup
    throws. *)
Theorem mount_empty_prefix (c : Router) (res : positive) (s : State) :
  run_mw (MwMount "" c) res s =
  match getRoute c (st_req s) with
  | Found rt => MStop (executeHandler rt res s)
  | NotFound => MNext s
  | TypeError => MThrow s
  end.
Proof.
  assert (Hq : removePathPrefix "" (st_req s) = st_req s) by (destruct (st_req s); reflexivity).
  assert (Hs : startsWith (req_path (st_req s)) "" = true)
    by (unfold startsWith; destruct (req_path (st_req s)); reflexivity).
  simpl; rewrite Hs, Hq, set_req_same; simpl.
  destruct (getRoute c (st_req s)) as [rt| |] eqn:E.
  - unfold handleRequest; rewrite E; reflexivity.
  - assert (Ha : addPathPrefix "" (st_req s) = st_req s) by (destruct (st_req s); reflexivity).
    rewrite Ha, set_req_same; reflexivity.
  - reflexivity.
Qed.

(** X14.  For a method that is not a property of [Object.prototype],
    route lookup on any router built by registration calls is the
    reference lookup: the first registration, in order, for the method
    with exactly the request path, else the first for "ALL", else not
    found. *)
Theorem getRoute_reference (ops : list RouterOp) (q : Request) :
  inherited (req_method q) = false ->
  getRoute (build ops) q = of_option (lookup_spec (route_log ops) (req_method q) (req_path q)).
Proof.
  intros Hi; unfold getRoute, lookup_spec.
  rewrite (findRoute_build ops (req_method q)) by exact Hi.
  rewrite (findRoute_build ops "ALL") by reflexivity.
  destruct (List.find _ (route_log ops)) as [e|]; simpl; [reflexivity|].
  destruct (List.find _ (route_log ops)); reflexivity.
Qed.

Lemma getRoute_reference_witness :
  inherited "GET" = false /\
  getRoute child_router (mkRequest JNull [] "GET" "/w") =
  of_option (lookup_spec (route_log [OpUse teapot_mw; OpRoute BGET "/w" ok_handler]) "GET" "/w").
Proof.
  split; [reflexivity|].
  exact (getRoute_reference [OpUse teapot_mw; OpRoute BGET "/w" ok_handler]
           (mkRequest JNull [] "GET" "/w") eq_refl).
Defined.

(** X15.  On any router built by registration calls, route lookup for a
    method naming a property of [Object.prototype] throws, whatever the
    routes and the path. *)
Theorem getRoute_inherited_throws (ops : list RouterOp) (q : Request) :
  inherited (req_method q) = true -> getRoute (build ops) q = TypeError.
Proof. apply getRoute_build_inherited. Qed.

Lemma getRoute_inherited_throws_witness :
  inherited "constructor" = true /\
  getRoute (build [OpRoute BALL "/" ok_handler]) (mkRequest JNull [] "constructor" "/") =
    TypeError.
Proof.
  split; [reflexivity|].
  exact (getRoute_inherited_throws [OpRoute BALL "/" ok_handler]
           (mkRequest JNull [] "constructor" "/") eq_refl).
Defined.

(** X16.  When the lookup returns [undefined], the built-in handler
    leaves the response with status 404, the body
    [{"message":"not found"}] and content type application/json, and
    settles the pending promise with that result; a router without
    middleware resolves its invocation to this result. *)
Theorem dispatch_not_found (r : Router) (res : positive) (s : State) (rp : Response) :
  getRoute r (st_req s) = NotFound -> st_resps s !! res = Some rp ->
  st_resps (handleRequest r res s) !! res =
    Some {| statusCode := 404; body := not_found_body;
            contentType := "application/json"; resolver := resolver rp |} /\
  st_req (handleRequest r res s) = st_req s /\
  (st_promises s !! resolver rp = Some None ->
   st_promises (handleRequest r res s) !! resolver rp =
   Some (Some {| res_statusCode := 404; res_body := not_found_body;
                 res_headers := [("Content-Type", "application/json")] |})) /\
  (forall (ops : list RouterOp) (q : Request) (fuel : nat),
     user_mws ops = [] -> 0 < fuel -> getRoute (build ops) q = NotFound ->
     getResponse fuel (build ops) q =
     Some (Resolved {| res_statusCode := 404; res_body := not_found_body;
                       res_headers := [("Content-Type", "application/json")] |})).
Proof.
  intros Hmiss Hres.
  rewrite (handleRequest_miss r res s rp Hmiss Hres).
  split; [|split; [|split]].
  - rewrite resolve_resps; simpl; apply lookup_insert_eq.
  - rewrite resolve_req; reflexivity.
  - intros Hp; rewrite resolve_pending by exact Hp; apply lookup_insert_eq.
  - intros ops q fuel Hops Hfuel Hq; rewrite getResponse_no_middleware by assumption.
    rewrite (handleRequest_miss_promise (build ops) 1
               {| st_req := q; st_resps := {[1%positive := new_Response 1]};
                  st_promises := {[1%positive := None]} |} (new_Response 1));
      [reflexivity| exact Hq | apply lookup_insert_eq | apply lookup_insert_eq].
Qed.

Lemma dispatch_not_found_witness :
  getRoute child_router (st_req api_state) = NotFound /\
  st_resps api_state !! 1%positive = Some (new_Response 1) /\
  getResponse 1 (build [OpRoute BGET "/w" ok_handler]) (mkRequest JNull [] "GET" "/v") =
  Some (Resolved {| res_statusCode := 404; res_body := not_found_body;
                    res_headers := [("Content-Type", "application/json")] |}).
Proof.
  split; [reflexivity|]; split; [reflexivity|].
  apply (proj2 (proj2 (proj2
    (dispatch_not_found child_router 1 api_state (new_Response 1) eq_refl eq_refl))));
    [reflexivity | lia | reflexivity].
Defined.

(** X17.  The mount step calls [next] with the whole state as it was
    when the path does not start with the prefix, and when it does but
    the child's lookup returns [undefined] for the stripped path. *)
Theorem mount_fallthrough (path : string) (child : Router) (res : positive) (s : State) :
  (startsWith (req_path (st_req s)) path = false ->
   run_mw (MwMount path child) res s = MNext s) /\
  (startsWith (req_path (st_req s)) path = true ->
   getRoute child (removePathPrefix path (st_req s)) = NotFound ->
   run_mw (MwMount path child) res s = MNext s).
Proof.
  split.
  - intros H; simpl; rewrite H; reflexivity.
  - intros Hpre Hmiss; simpl; rewrite Hpre; simpl; rewrite Hmiss.
    rewrite set_req_set_req; simpl.
    rewrite add_remove_prefix by exact Hpre.
    rewrite set_req_same; reflexivity.
Qed.

Lemma mount_fallthrough_witness :
  run_mw (MwMount "/x" child_router) 1 api_state = MNext api_state /\
  run_mw (MwMount "/ap" child_router) 1 api_state = MNext api_state.
Proof.
  split.
  - apply (proj1 (mount_fallthrough "/x" child_router 1 api_state)); reflexivity.
  - apply (proj2 (mount_fallthrough "/ap" child_router 1 api_state)); reflexivity.
Defined.

(** X18.  On a router without middleware, a request whose method names a
    property of [Object.prototype] never resolves: the dispatch's
    rejected promise is dropped and the response is never finished. *)
Theorem dispatch_inherited_method_pending (ops : list RouterOp) (q : Request) (fuel : nat) :
  user_mws ops = [] -> 0 < fuel -> inherited (req_method q) = true ->
  getResponse fuel (build ops) q = Some Pending.
Proof.
  intros Hops Hfuel Hi; rewrite getResponse_no_middleware by assumption.
  unfold handleRequest; simpl; rewrite getRoute_build_inherited by exact Hi.
  simpl; rewrite lookup_singleton_eq; reflexivity.
Qed.

Lemma dispatch_inherited_method_pending_witness :
  getResponse 1 (build [OpRoute BALL "/" ok_handler]) (mkRequest JNull [] "valueOf" "/") =
  Some Pending.
Proof.
  apply dispatch_inherited_method_pending; [reflexivity | lia | reflexivity].
Defined.

(** X19.  A mounted router built by registration calls, reached by a
    request under its prefix whose method names a property of
    [Object.prototype], throws with the prefix removed from the path;
    a router whose first middleware is such a mount rejects the
    invocation. *)
Theorem mount_inherited_method_throws (path : string) (ops : list RouterOp) (res : positive)
    (s : State) :
  startsWith (req_path (st_req s)) path = true -> inherited (req_method (st_req s)) = true ->
  run_mw (MwMount path (build ops)) res s =
    MThrow (set_req (removePathPrefix path (st_req s)) s) /\
  (forall (ops' : list RouterOp) (fuel : nat),
     0 < fuel ->
     getResponse fuel (build (OpUseRouter path (build ops) :: ops')) (st_req s) = Some Rejected).
Proof.
  intros Hpre Hi.
  assert (Hm : forall res' s', st_req s' = st_req s ->
             run_mw (MwMount path (build ops)) res' s' =
             MThrow (set_req (removePathPrefix path (st_req s)) s')).
  { intros res' s' Hs'; simpl; rewrite Hs', Hpre; simpl.
    rewrite getRoute_build_inherited by (destruct (st_req s); exact Hi); reflexivity. }
  split; [apply Hm; reflexivity|].
  intros ops' fuel Hfuel; unfold getResponse.
  pose proof (middlewares_build (OpUseRouter path (build ops) :: ops')) as Hb.
  assert (Hl : middlewares (build (OpUseRouter path (build ops) :: ops')) !! 0 =
                Some (UserStep 0 (MwMount path (build ops)))) by (rewrite Hb; reflexivity).
  destruct fuel as [|fuel]; [lia|]; cbn [run_from]; rewrite Hl.
  rewrite Hm by reflexivity; cbn [st_promises set_req].
  rewrite lookup_singleton_eq; reflexivity.
Qed.

Lemma mount_inherited_method_throws_witness :
  getResponse 2 parent_router (mkRequest JNull [] "__proto__" "/api/w") = Some Rejected.
Proof.
  exact (proj2 (mount_inherited_method_throws "/api" [OpUse teapot_mw; OpRoute BGET "/w" ok_handler]
           1 (set_req (mkRequest JNull [] "__proto__" "/api/w") api_state) eq_refl eq_refl)
           [] 2 ltac:(lia)).
Defined.
